(** * The monitoring dashboard of [frontend/frontend_monitor.py]

    A shallow embedding of the script's data pipeline: the inner join of the
    predicted and the observed hourly series, the station filter, the sort by
    parsed timestamp, the error column and the three reported metrics.

    Modelling conventions.
    - A DataFrame is the list of its rows, a row a record of its columns.
    - [pickup_location_id] is an integer ([Z]).  [pickup_hour] is kept
      abstract ([Hour], with decidable equality): the join compares the raw
      values, the sort compares what [pd.to_datetime] makes of them.
    - [rides] is a count ([Z]); [predicted_demand] and the errors are exact
      rationals ([Q]).  The rounding and the NaN inputs of float64 are outside
      the model; the one NaN the script could produce by itself, a reduction
      of an empty column, is the constructor [NaN] of [stat].
    - [fetch_predictions] and [fetch_hourly_rides] come from [src.inference]
      and are parameters of the development, functions of the window only.
    - The two sidebar widgets are the inputs of the script: [monitor] takes
      the selected station and the time window as arguments. *)

From Stdlib Require Import String List ZArith QArith Qabs Bool Lia.
From Stdlib Require Import Sorting.Sorted Sorting.Permutation.
Import ListNotations.

Local Open Scope Z_scope.

(** ** Columns *)

(** [Series.unique().tolist()]: the distinct values, by first appearance. *)
Fixpoint unique (l : list Z) : list Z :=
  match l with
  | [] => []
  | x :: t => x :: filter (fun y => negb (y =? x)) (unique t)
  end.

(** What a reduction of a float column returns: a number, or NaN when the
    column has no value to reduce. *)
Inductive stat : Type :=
| NaN : stat
| Num : Q -> stat.

Definition Qsum (l : list Q) : Q := fold_right Qplus 0%Q l.

Definition Qmax_of (a b : Q) : Q := if Qle_bool a b then b else a.

(** [Series.mean()] *)
Definition mean (l : list Q) : stat :=
  match l with
  | [] => NaN
  | _ :: _ => Num (Qsum l / inject_Z (Z.of_nat (List.length l)))
  end.

(** [Series.max()] *)
Definition max (l : list Q) : stat :=
  match l with
  | [] => NaN
  | x :: t => Num (fold_left Qmax_of t x)
  end.

(** [DataFrame.empty] *)
Definition empty {A : Type} (df : list A) : bool :=
  match df with
  | [] => true
  | _ :: _ => false
  end.

(** ** Rows *)

(** A row of [fetch_predictions(hours)]. *)
Record Prediction (Hour : Type) : Type := mkPrediction {
  p_pickup_location_id : Z;
  p_pickup_hour : Hour;
  p_predicted_demand : Q
}.

(** A row of [fetch_hourly_rides(hours)]. *)
Record Observation (Hour : Type) : Type := mkObservation {
  o_pickup_location_id : Z;
  o_pickup_hour : Hour;
  o_rides : Z
}.

(** A row of the merged frame: the two key columns once, then the value
    column of the left frame and the one of the right frame. *)
Record Merged (Hour : Type) : Type := mkMerged {
  pickup_location_id : Z;
  pickup_hour : Hour;
  predicted_demand : Q;
  rides : Z
}.

(** A merged row with the [timestamp] column of [load_station_data]. *)
Record Stamped (Hour : Type) : Type := mkStamped {
  row : Merged Hour;
  timestamp : Z
}.

(** A stamped row with the [error] column of the script. *)
Record Scored (Hour : Type) : Type := mkScored {
  srow : Stamped Hour;
  error : Q
}.

Arguments mkPrediction {Hour} _ _ _.
Arguments p_pickup_location_id {Hour} _.
Arguments p_pickup_hour {Hour} _.
Arguments p_predicted_demand {Hour} _.
Arguments mkObservation {Hour} _ _ _.
Arguments o_pickup_location_id {Hour} _.
Arguments o_pickup_hour {Hour} _.
Arguments o_rides {Hour} _.
Arguments mkMerged {Hour} _ _ _ _.
Arguments pickup_location_id {Hour} _.
Arguments pickup_hour {Hour} _.
Arguments predicted_demand {Hour} _.
Arguments rides {Hour} _.
Arguments mkStamped {Hour} _ _.
Arguments row {Hour} _.
Arguments timestamp {Hour} _.
Arguments mkScored {Hour} _ _.
Arguments srow {Hour} _.
Arguments error {Hour} _.

(** ** What the script puts on the page *)

Inductive metric_value : Type :=
| Fmt2f : stat -> metric_value        (* f"{v:.2f}" of a float *)
| Count : nat -> metric_value.        (* len(data) *)

Inductive ui (Hour : Type) : Type :=
| Warning : string -> ui Hour                        (* st.warning *)
| Stop : ui Hour                                     (* st.stop *)
| Subheader : string -> ui Hour                      (* st.subheader *)
| StationHeader : Z -> Z -> ui Hour                  (* st.subheader, f-string *)
| Metric : string -> metric_value -> ui Hour         (* col.metric *)
| Markdown : string -> ui Hour                       (* st.markdown *)
| ComparisonChart : list (Scored Hour) -> ui Hour    (* st.altair_chart *)
| ErrorChart : list (Scored Hour) -> stat -> ui Hour. (* st.altair_chart *)

Arguments Warning {Hour} _.
Arguments Stop {Hour}.
Arguments Subheader {Hour} _.
Arguments StationHeader {Hour} _ _.
Arguments Metric {Hour} _ _.
Arguments Markdown {Hour} _.
Arguments ComparisonChart {Hour} _.
Arguments ErrorChart {Hour} _ _.

(** ** Concrete datasets

    Hours are counted from the epoch and parsed into seconds.  The fetches of
    scenarios A and B ignore the window; the ones of scenario C keep the rows
    of the last [hours] hours before hour 30. *)

Module Scenario.

Definition Hour : Type := Z.

Definition to_datetime (h : Hour) : Z := 3600 * h.

(** Scenario A of the specification. *)
Definition predicted_A (_ : Z) : list (Prediction Hour) :=
  [ mkPrediction 1 1 4%Q; mkPrediction 1 2 6%Q ].

Definition observed_A (_ : Z) : list (Observation Hour) :=
  [ mkObservation 1 1 5; mkObservation 1 2 3 ].

(** Scenario B of the specification. *)
Definition predicted_B (_ : Z) : list (Prediction Hour) :=
  [ mkPrediction 2 1 4%Q ].

Definition observed_B (_ : Z) : list (Observation Hour) :=
  [ mkObservation 1 1 5 ].

(** Two predictions and two observations of one station and hour. *)
Definition predicted_dup : list (Prediction Hour) :=
  [ mkPrediction 1 7 4%Q; mkPrediction 1 7 5%Q ].

Definition observed_dup : list (Observation Hour) :=
  [ mkObservation 1 7 3; mkObservation 1 7 6 ].

(** Scenario C: the window selects the trailing hours. *)
Definition predicted_C (hours : Z) : list (Prediction Hour) :=
  filter (fun p => 30 - hours <? p_pickup_hour p)
         [ mkPrediction 1 10 2%Q; mkPrediction 1 29 3%Q;
           mkPrediction 1 30 7%Q; mkPrediction 2 30 1%Q ].

Definition observed_C (hours : Z) : list (Observation Hour) :=
  filter (fun o => 30 - hours <? o_pickup_hour o)
         [ mkObservation 1 10 2; mkObservation 1 29 5;
           mkObservation 1 30 4; mkObservation 2 30 1 ].

End Scenario.

(** ** The script *)

Section Monitor.

Variable Hour : Type.
Variable Hour_eq_dec : forall a b : Hour, {a = b} + {a <> b}.
(** [pd.to_datetime] on one value of the hour column. *)
Variable to_datetime : Hour -> Z.
Variable fetch_predictions : Z -> list (Prediction Hour).
Variable fetch_hourly_rides : Z -> list (Observation Hour).

(** *** [pd.merge(left, right, on=[...], how='inner')] *)

Definition key_eqb (p : Prediction Hour) (o : Observation Hour) : bool :=
  (p_pickup_location_id p =? o_pickup_location_id o)
  && (if Hour_eq_dec (p_pickup_hour p) (o_pickup_hour o) then true else false).

Definition join_row (p : Prediction Hour) (o : Observation Hour)
  : Merged Hour :=
  mkMerged (p_pickup_location_id p) (p_pickup_hour p)
           (p_predicted_demand p) (o_rides o).

(** Every pair of a left row and a right row with equal keys gives one row;
    the rows follow the left frame, then the right frame. *)
Definition merge (left : list (Prediction Hour))
           (right : list (Observation Hour)) : list (Merged Hour) :=
  flat_map (fun p => map (join_row p) (filter (key_eqb p) right)) left.

(** *** [get_station_list] *)

Definition get_station_list (hours : Z) : list Z :=
  let dp := fetch_predictions hours in
  let dr := fetch_hourly_rides hours in
  let merged := merge dp dr in
  unique (map pickup_location_id merged).

(** *** [load_station_data] *)

Definition add_timestamp (r : Merged Hour) : Stamped Hour :=
  mkStamped r (to_datetime (pickup_hour r)).

Fixpoint insert_by_timestamp (r : Stamped Hour) (l : list (Stamped Hour))
  : list (Stamped Hour) :=
  match l with
  | [] => [r]
  | x :: t =>
      if timestamp r <=? timestamp x then r :: x :: t
      else x :: insert_by_timestamp r t
  end.

(** [df.sort_values('timestamp')], ascending.  The order pandas gives to
    rows of equal timestamp is not fixed by its default algorithm; here
    they keep their order, and no statement below depends on it. *)
Definition sort_values (l : list (Stamped Hour)) : list (Stamped Hour) :=
  fold_right insert_by_timestamp [] l.

Definition load_station_data (station_id : Z) (hours : Z)
  : list (Stamped Hour) :=
  let df_pred := fetch_predictions hours in
  let df_obs := fetch_hourly_rides hours in
  let df := merge df_pred df_obs in
  let df := filter (fun r => pickup_location_id r =? station_id) df in
  let df := map add_timestamp df in
  sort_values df.

(** *** The script from the data loading on *)

(** [data['error'] = (data['predicted_demand'] - data['rides']).abs()] *)
Definition add_error (r : Stamped Hour) : Scored Hour :=
  mkScored r (Qabs (predicted_demand (row r) - inject_Z (rides (row r)))).

(** The calls the script makes on the page, in order, for the selected
    station and window. *)
Definition monitor (selected_station : Z) (time_window : Z) : list (ui Hour) :=
  let data := load_station_data selected_station time_window in
  if empty data then
    [ Warning "No data for this station in the selected window."; Stop ]
  else
    let data := map add_error data in
    let avg_error := mean (map error data) in
    [ StationHeader selected_station time_window;
      Metric "Average Error" (Fmt2f avg_error);
      Metric "Max Error" (Fmt2f (max (map error data)));
      Metric "Data Points" (Count (List.length data));
      Markdown "---";
      Subheader "Actual vs. Predicted Rides";
      ComparisonChart data;
      Markdown "---";
      Subheader "Error Over Time with MAE Highlight";
      ErrorChart data avg_error ].

(** *** Words of the specification *)

(** The (station, hour) key of a row. *)
Definition p_key (p : Prediction Hour) : Z * Hour :=
  (p_pickup_location_id p, p_pickup_hour p).

Definition o_key (o : Observation Hour) : Z * Hour :=
  (o_pickup_location_id o, o_pickup_hour o).

(** The parsed hour of a returned record. *)
Definition parsed_hour (x : Stamped Hour) : Z :=
  to_datetime (pickup_hour (row x)).

(** The order [sort_values] sorts by. *)
Definition by_timestamp (a b : Stamped Hour) : Prop :=
  timestamp a <= timestamp b.

(** The per-row absolute errors of a series, as the glossary words them. *)
Definition abs_errors (rows : list (Stamped Hour)) : list Q :=
  map (fun r => Qabs (predicted_demand (row r) - inject_Z (rides (row r))))
      rows.

(** ** Facts about the helpers *)

Lemma key_eqb_true (p : Prediction Hour) (o : Observation Hour) :
  key_eqb p o = true <->
  p_pickup_location_id p = o_pickup_location_id o /\
  p_pickup_hour p = o_pickup_hour o.
Proof.
  unfold key_eqb. rewrite andb_true_iff, Z.eqb_eq.
  destruct (Hour_eq_dec (p_pickup_hour p) (o_pickup_hour o)) as [e | n].
  - tauto.
  - split; [intros [_ H]; discriminate H | intros [_ H]; contradiction].
Qed.

Lemma in_merge (left : list (Prediction Hour)) (right : list (Observation Hour))
      (r : Merged Hour) :
  In r (merge left right) <->
  exists p o, In p left /\ In o right /\ key_eqb p o = true
              /\ r = join_row p o.
Proof.
  unfold merge. rewrite in_flat_map. split.
  - intros [p [Hp Hr]]. apply in_map_iff in Hr.
    destruct Hr as [o [Ho Hin]]. apply filter_In in Hin.
    destruct Hin as [Hin Hk]. exists p, o. auto.
  - intros [p [o [Hp [Ho [Hk Hr]]]]]. exists p. split; [exact Hp |].
    apply in_map_iff. exists o. split; [auto |].
    apply filter_In. auto.
Qed.

Lemma unique_In (l : list Z) (x : Z) : In x (unique l) <-> In x l.
Proof.
  induction l as [| y t IH]; simpl; [tauto |].
  rewrite filter_In, IH, negb_true_iff, Z.eqb_neq.
  destruct (Z.eq_dec y x) as [e | n]; [tauto |].
  split; [tauto |]. intros [H | H]; [tauto |].
  right. split; [exact H | congruence].
Qed.

Lemma insert_by_timestamp_perm (r : Stamped Hour) (l : list (Stamped Hour)) :
  Permutation (r :: l) (insert_by_timestamp r l).
Proof.
  induction l as [| x t IH]; simpl; [auto |].
  destruct (timestamp r <=? timestamp x); [auto |].
  eapply perm_trans; [apply perm_swap |]. apply perm_skip, IH.
Qed.

Lemma sort_values_perm (l : list (Stamped Hour)) : Permutation l (sort_values l).
Proof.
  induction l as [| x t IH]; simpl; [auto |].
  eapply perm_trans; [apply perm_skip, IH |].
  apply insert_by_timestamp_perm.
Qed.

Lemma sort_values_In (l : list (Stamped Hour)) (x : Stamped Hour) :
  In x (sort_values l) <-> In x l.
Proof.
  split; intro H.
  - eapply Permutation_in; [apply Permutation_sym, sort_values_perm | exact H].
  - eapply Permutation_in; [apply sort_values_perm | exact H].
Qed.

Lemma insert_by_timestamp_sorted (r : Stamped Hour) (l : list (Stamped Hour)) :
  StronglySorted by_timestamp l ->
  StronglySorted by_timestamp (insert_by_timestamp r l).
Proof.
  induction 1 as [| x t Hs IH Hx]; simpl.
  - constructor; constructor.
  - destruct (timestamp r <=? timestamp x) eqn:E.
    + apply Z.leb_le in E. constructor; [constructor; assumption |].
      constructor; [exact E |].
      eapply Forall_impl; [| exact Hx]. unfold by_timestamp. intros; lia.
    + apply Z.leb_gt in E. constructor; [exact IH |].
      eapply Permutation_Forall; [apply insert_by_timestamp_perm |].
      constructor; [unfold by_timestamp; lia | exact Hx].
Qed.

Lemma sort_values_sorted (l : list (Stamped Hour)) :
  StronglySorted by_timestamp (sort_values l).
Proof.
  induction l as [| x t IH]; simpl; [constructor |].
  apply insert_by_timestamp_sorted, IH.
Qed.

(** Every row returned by [load_station_data] is a merged row of the
    selected station, stamped with its parsed hour. *)
Lemma in_load_station_data (station_id hours : Z) (x : Stamped Hour) :
  In x (load_station_data station_id hours) <->
  exists r, In r (merge (fetch_predictions hours) (fetch_hourly_rides hours))
            /\ pickup_location_id r = station_id /\ x = add_timestamp r.
Proof.
  unfold load_station_data. rewrite sort_values_In, in_map_iff. split.
  - intros [r [Hx Hr]]. apply filter_In in Hr. destruct Hr as [Hr Hs].
    apply Z.eqb_eq in Hs. exists r. auto.
  - intros [r [Hr [Hs Hx]]]. exists r. split; [auto |].
    apply filter_In. split; [exact Hr | apply Z.eqb_eq, Hs].
Qed.

(** ** The join *)

(** C1: the inner join holds a record with key (s, h) exactly when the
    predicted dataset and the observed dataset both hold a row with
    station s and hour h; a key of one dataset only gives no record. *)
Theorem merge_key_iff (df_pred : list (Prediction Hour)) (df_obs : list (Observation Hour))
        (s : Z) (h : Hour) :
  (exists r, In r (merge df_pred df_obs)
             /\ pickup_location_id r = s /\ pickup_hour r = h) <->
  (exists p, In p df_pred
             /\ p_pickup_location_id p = s /\ p_pickup_hour p = h) /\
  (exists o, In o df_obs
             /\ o_pickup_location_id o = s /\ o_pickup_hour o = h).
Proof.
  split.
  - intros [r [Hr [Hs Hh]]]. apply in_merge in Hr.
    destruct Hr as [p [o [Hp [Ho [Hk Hj]]]]]. apply key_eqb_true in Hk.
    destruct Hk as [Kid Khour]. subst r. simpl in Hs, Hh. split.
    + exists p. auto.
    + exists o. repeat split; [exact Ho | congruence | congruence].
  - intros [[p [Hp [Ps Ph]]] [o [Ho [Os Oh]]]].
    exists (join_row p o). simpl. repeat split; [| exact Ps | exact Ph].
    apply in_merge. exists p, o. repeat split; [exact Hp | exact Ho |].
    apply key_eqb_true. split; congruence.
Qed.

Lemma key_eqb_keys (p : Prediction Hour) (o : Observation Hour) :
  key_eqb p o = true <-> p_key p = o_key o.
Proof.
  rewrite key_eqb_true. unfold p_key, o_key. split.
  - intros [H1 H2]. congruence.
  - intro H. inversion H. auto.
Qed.

(** A frame with one row per key holds at most one match of a given row. *)
Lemma filter_unique_key {A : Type} (key : A -> Z * Hour) (f : A -> bool)
      (k : Z * Hour) (l : list A) :
  (forall a, f a = true -> key a = k) ->
  NoDup (map key l) -> (List.length (filter f l) <= 1)%nat.
Proof.
  intros Hf. induction l as [| a t IH]; simpl; intro Hnd; [lia |].
  inversion Hnd as [| k' l' Hnotin Hnd' ]; subst.
  destruct (f a) eqn:E; [| auto]. simpl.
  destruct (filter f t) as [| b u] eqn:Ft; [simpl; lia |].
  exfalso. apply Hnotin.
  assert (Hb : In b (filter f t)) by (rewrite Ft; left; reflexivity).
  apply filter_In in Hb. destruct Hb as [Hb Hfb].
  rewrite (Hf a E), <- (Hf b Hfb). apply in_map, Hb.
Qed.

Lemma merge_cons_right (left : list (Prediction Hour)) (o : Observation Hour)
      (right : list (Observation Hour)) :
  List.length (merge left (o :: right)) =
  (List.length (filter (fun p => key_eqb p o) left)
   + List.length (merge left right))%nat.
Proof.
  unfold merge. induction left as [| p t IH]; simpl in *; [reflexivity |].
  rewrite !length_app, IH.
  destruct (key_eqb p o); simpl; rewrite ?length_map; simpl; lia.
Qed.

Lemma merge_length_left (left : list (Prediction Hour)) (right : list (Observation Hour)) :
  NoDup (map o_key right) ->
  (List.length (merge left right) <= List.length left)%nat.
Proof.
  intro Hnd. unfold merge. induction left as [| p t IH]; simpl; [lia |].
  rewrite length_app, length_map.
  assert (List.length (filter (key_eqb p) right) <= 1)%nat.
  { apply (filter_unique_key o_key _ (p_key p)); [| exact Hnd].
    intros o Ho. symmetry. apply key_eqb_keys, Ho. }
  lia.
Qed.

Lemma merge_length_right (left : list (Prediction Hour)) (right : list (Observation Hour)) :
  NoDup (map p_key left) ->
  (List.length (merge left right) <= List.length right)%nat.
Proof.
  intro Hnd. induction right as [| o t IH].
  - unfold merge. induction left as [| p u IHu]; simpl; [lia |].
    inversion Hnd; subst. auto.
  - rewrite merge_cons_right. simpl.
    assert (List.length (filter (fun p => key_eqb p o) left) <= 1)%nat.
    { apply (filter_unique_key p_key _ (o_key o)); [| exact Hnd].
      intros p Hp. apply key_eqb_keys, Hp. }
    lia.
Qed.

(** C7, amended: when neither dataset holds two rows with the same
    (station, hour) key, the inner join has at most as many rows as the
    smaller of the two datasets. *)
Theorem merge_length_unique_keys (df_pred : list (Prediction Hour))
        (df_obs : list (Observation Hour)) :
  NoDup (map p_key df_pred) ->
  NoDup (map o_key df_obs) ->
  (List.length (merge df_pred df_obs)
   <= Nat.min (List.length df_pred) (List.length df_obs))%nat.
Proof.
  intros Hp Ho. apply Nat.min_glb.
  - apply merge_length_left, Ho.
  - apply merge_length_right, Hp.
Qed.

(** ** The station series *)

(** C4: whatever the station, the window and the fetched datasets, the
    records returned by [load_station_data] are in non-decreasing order of
    the parsed hour. *)
Theorem load_station_data_sorted (station_id hours : Z) :
  StronglySorted (fun a b => parsed_hour a <= parsed_hour b)
                 (load_station_data station_id hours).
Proof.
  assert (Hts : Forall (fun x => timestamp x = parsed_hour x)
                       (load_station_data station_id hours)).
  { apply Forall_forall. intros x Hx. apply in_load_station_data in Hx.
    destruct Hx as [r [_ [_ Hx]]]. subst x. reflexivity. }
  assert (Hs : StronglySorted by_timestamp
                              (load_station_data station_id hours))
    by apply sort_values_sorted.
  revert Hts. induction Hs as [| x t Hs IH Hx]; intro Hts; constructor.
  - apply IH. inversion Hts; assumption.
  - inversion Hts as [| y u Hy Hu]; subst.
    rewrite Forall_forall in *. intros z Hz. unfold by_timestamp in Hx.
    rewrite <- Hy, <- (Hu z Hz). apply Hx, Hz.
Qed.

(** ** The error column and the metrics *)

Lemma error_column (rows : list (Stamped Hour)) :
  map error (map add_error rows) = abs_errors rows.
Proof. unfold abs_errors. rewrite map_map. reflexivity. Qed.

(** C3: the error computed for a joined record is the absolute value of
    predicted demand minus rides of that row, hence not negative. *)
Theorem error_is_absolute (data : list (Stamped Hour)) :
  Forall (fun r =>
            (error r ==
             Qabs (predicted_demand (row (srow r))
                   - inject_Z (rides (row (srow r)))))%Q
            /\ (0 <= error r)%Q)
         (map add_error data).
Proof.
  apply Forall_forall. intros r Hr. apply in_map_iff in Hr.
  destruct Hr as [x [Hx _]]. subst r. unfold add_error.
  cbn [error srow]. split.
  - reflexivity.
  - apply Qabs_nonneg.
Qed.

Lemma Qmax_of_left (a b : Q) : (a <= Qmax_of a b)%Q.
Proof.
  unfold Qmax_of. destruct (Qle_bool a b) eqn:E.
  - apply Qle_bool_iff, E.
  - apply Qle_refl.
Qed.

Lemma Qmax_of_right (a b : Q) : (b <= Qmax_of a b)%Q.
Proof.
  unfold Qmax_of. destruct (Qle_bool a b) eqn:E.
  - apply Qle_refl.
  - apply Qlt_le_weak, Qnot_le_lt. intro H.
    apply Qle_bool_iff in H. congruence.
Qed.

Lemma Qmax_of_cases (a b : Q) : Qmax_of a b = a \/ Qmax_of a b = b.
Proof. unfold Qmax_of. destruct (Qle_bool a b); auto. Qed.

Lemma fold_max_spec (t : list Q) (x : Q) :
  In (fold_left Qmax_of t x) (x :: t) /\
  Forall (fun e => (e <= fold_left Qmax_of t x)%Q) (x :: t).
Proof.
  revert x. induction t as [| y t IH]; intro x; simpl.
  - split; [auto | constructor; [apply Qle_refl | constructor]].
  - destruct (IH (Qmax_of x y)) as [Hin Hall]. split.
    + destruct Hin as [Hin | Hin]; [| right; right; exact Hin].
      destruct (Qmax_of_cases x y) as [E | E];
        [left | right; left]; congruence.
    + inversion Hall as [| z u Hz Hu]; subst.
      constructor; [| constructor; [| exact Hu]].
      * eapply Qle_trans; [apply Qmax_of_left | exact Hz].
      * eapply Qle_trans; [apply Qmax_of_right | exact Hz].
Qed.

Lemma monitor_empty (s h : Z) :
  load_station_data s h = [] ->
  monitor s h =
    [ Warning "No data for this station in the selected window."; Stop ].
Proof. intro E. unfold monitor. rewrite E. reflexivity. Qed.

Lemma monitor_nonempty (s h : Z) :
  load_station_data s h <> [] ->
  monitor s h =
  [ StationHeader s h;
    Metric "Average Error" (Fmt2f (mean (abs_errors (load_station_data s h))));
    Metric "Max Error" (Fmt2f (max (abs_errors (load_station_data s h))));
    Metric "Data Points" (Count (List.length (load_station_data s h)));
    Markdown "---";
    Subheader "Actual vs. Predicted Rides";
    ComparisonChart (map add_error (load_station_data s h));
    Markdown "---";
    Subheader "Error Over Time with MAE Highlight";
    ErrorChart (map add_error (load_station_data s h))
               (mean (abs_errors (load_station_data s h))) ].
Proof.
  intro Hne. unfold monitor.
  destruct (load_station_data s h) as [| x l] eqn:E; [contradiction |].
  cbv zeta. rewrite error_column, length_map. reflexivity.
Qed.

(** C2: on a non-empty series of the selected station, the Average Error
    shown is the sum of the per-row absolute errors divided by their
    number, the Max Error shown is one of them and bounds them all, and
    Data Points is the number of rows of the series. *)
Theorem monitor_metrics (s h : Z) :
  load_station_data s h <> [] ->
  exists avg mx : Q,
    In (Metric "Average Error" (Fmt2f (Num avg))) (monitor s h) /\
    In (Metric "Max Error" (Fmt2f (Num mx))) (monitor s h) /\
    In (Metric "Data Points" (Count (List.length (load_station_data s h))))
       (monitor s h) /\
    (avg == Qsum (abs_errors (load_station_data s h))
            / inject_Z (Z.of_nat
                          (List.length (abs_errors (load_station_data s h)))))%Q
    /\ In mx (abs_errors (load_station_data s h))
    /\ Forall (fun e => (e <= mx)%Q) (abs_errors (load_station_data s h)).
Proof.
  intro Hne. rewrite (monitor_nonempty s h Hne).
  destruct (load_station_data s h) as [| x l]; [contradiction |].
  set (errs := abs_errors (x :: l)).
  assert (He : errs = Qabs (predicted_demand (row x) - inject_Z (rides (row x)))
                      :: abs_errors l) by reflexivity.
  destruct (fold_max_spec (abs_errors l)
              (Qabs (predicted_demand (row x) - inject_Z (rides (row x)))))
    as [Hin Hall].
  exists (Qsum errs / inject_Z (Z.of_nat (List.length errs)))%Q.
  exists (fold_left Qmax_of (abs_errors l)
            (Qabs (predicted_demand (row x) - inject_Z (rides (row x))))).
  rewrite He. simpl mean. simpl max.
  split; [right; left; reflexivity |].
  split; [right; right; left; reflexivity |].
  split; [right; right; right; left; reflexivity |].
  split; [reflexivity |]. split; assumption.
Qed.

(** ** The empty result *)

(** C5: when the join and the station filter leave no row, the returned
    sequence is empty, the page gets the warning and the script stops
    there: no metric, hence no mean and no maximum, is computed. *)
Theorem empty_result_stops (s h : Z) :
  filter (fun r => pickup_location_id r =? s)
         (merge (fetch_predictions h) (fetch_hourly_rides h)) = [] ->
  load_station_data s h = [] /\
  monitor s h =
    [ Warning "No data for this station in the selected window."; Stop ] /\
  (forall label v, ~ In (Metric label v) (monitor s h)).
Proof.
  intro Hf.
  assert (E : load_station_data s h = [])
    by (unfold load_station_data; rewrite Hf; reflexivity).
  split; [exact E |]. rewrite (monitor_empty s h E). split; [reflexivity |].
  intros label v [H | [H | []]]; discriminate H.
Qed.

(** C6, amended: the script guards the reductions with [data.empty]: a
    mean or max metric is on the page only when the series has a row. *)
Theorem metric_needs_data (s h : Z) (label : string) (v : stat) :
  In (Metric label (Fmt2f v)) (monitor s h) ->
  load_station_data s h <> [].
Proof.
  intros Hin E. rewrite (monitor_empty s h E) in Hin.
  destruct Hin as [H | [H | []]]; discriminate H.
Qed.

(** ** The catalog *)

Lemma in_get_station_list (s h : Z) :
  In s (get_station_list h) <-> load_station_data s h <> [].
Proof.
  unfold get_station_list. cbv zeta. rewrite unique_In, in_map_iff. split.
  - intros [r [Hs Hr]] E.
    assert (Hx : In (add_timestamp r) (load_station_data s h))
      by (apply in_load_station_data; exists r; auto).
    rewrite E in Hx. exact Hx.
  - intro Hne. destruct (load_station_data s h) as [| x l] eqn:E;
      [contradiction |].
    assert (Hx : In x (load_station_data s h)) by (rewrite E; left; reflexivity).
    apply in_load_station_data in Hx. destruct Hx as [r [Hr [Hs _]]].
    exists r. auto.
Qed.

(** C8: for a station outside the catalog of the same window,
    [load_station_data] has no row and the page is the one of the empty
    result: the same warning, then stop, and nothing else. *)
Theorem unknown_station_is_empty (s h : Z) :
  ~ In s (get_station_list h) ->
  load_station_data s h = [] /\
  monitor s h =
    [ Warning "No data for this station in the selected window."; Stop ].
Proof.
  intro Hout.
  assert (E : load_station_data s h = []).
  { destruct (load_station_data s h) as [| x l] eqn:E; [reflexivity |].
    exfalso. apply Hout, in_get_station_list. rewrite E. discriminate. }
  split; [exact E | apply monitor_empty, E].
Qed.

(** C10: for a station of the catalog, the fetches being the same in both
    operations, [load_station_data] has a row and the page carries no
    warning. *)
Theorem catalog_station_has_data (s h : Z) :
  In s (get_station_list h) ->
  load_station_data s h <> [] /\
  (forall msg, ~ In (Warning msg) (monitor s h)) /\
  ~ In Stop (monitor s h).
Proof.
  intro Hin. apply in_get_station_list in Hin. split; [exact Hin |].
  rewrite (monitor_nonempty s h Hin). split.
  - intros msg H. simpl in H.
    repeat (destruct H as [H | H]; [discriminate H |]). contradiction.
  - intro H. simpl in H.
    repeat (destruct H as [H | H]; [discriminate H |]). contradiction.
Qed.

(** ** Windows *)

Lemma merge_incl (l1 l2 : list (Prediction Hour)) (r1 r2 : list (Observation Hour)) :
  incl l1 l2 -> incl r1 r2 -> incl (merge l1 r1) (merge l2 r2).
Proof.
  intros Hl Hr x Hx. apply in_merge in Hx.
  destruct Hx as [p [o [Hp [Ho [Hk Hx]]]]].
  apply in_merge. exists p, o. auto.
Qed.

Lemma load_station_data_incl (s w1 w2 : Z) :
  incl (fetch_predictions w1) (fetch_predictions w2) ->
  incl (fetch_hourly_rides w1) (fetch_hourly_rides w2) ->
  incl (load_station_data s w1) (load_station_data s w2).
Proof.
  intros Hp Ho x Hx. apply in_load_station_data in Hx.
  destruct Hx as [r [Hr [Hs Hx]]]. apply in_load_station_data.
  exists r. repeat split; [| exact Hs | exact Hx].
  exact (merge_incl _ _ _ _ Hp Ho r Hr).
Qed.

(** C9: if the fetches for 24 hours return every row the fetches for 1
    hour return, then every hour of the station's series for the window
    of 1 is an hour of its series for the window of 24. *)
Theorem window_hours_covered (s : Z) :
  incl (fetch_predictions 1) (fetch_predictions 24) ->
  incl (fetch_hourly_rides 1) (fetch_hourly_rides 24) ->
  incl (map (fun x => pickup_hour (row x)) (load_station_data s 1))
       (map (fun x => pickup_hour (row x)) (load_station_data s 24)).
Proof.
  intros Hp Ho. apply incl_map, load_station_data_incl; assumption.
Qed.

(** ** Further facts: the catalog *)

Lemma unique_NoDup (l : list Z) : NoDup (unique l).
Proof.
  induction l as [| x t IH]; simpl; constructor.
  - intro H. apply filter_In in H. destruct H as [_ H].
    rewrite Z.eqb_refl in H. discriminate H.
  - apply NoDup_filter, IH.
Qed.

(** X1: the station list holds no station twice. *)
Theorem get_station_list_NoDup (hours : Z) : NoDup (get_station_list hours).
Proof. unfold get_station_list. apply unique_NoDup. Qed.

(** X2: a station is in the station list exactly when, for some hour, the
    predictions and the observations fetched for the window both hold a row
    of that station and hour. *)
Theorem get_station_list_iff (s hours : Z) :
  In s (get_station_list hours) <->
  exists h : Hour,
    (exists p, In p (fetch_predictions hours)
               /\ p_pickup_location_id p = s /\ p_pickup_hour p = h) /\
    (exists o, In o (fetch_hourly_rides hours)
               /\ o_pickup_location_id o = s /\ o_pickup_hour o = h).
Proof.
  unfold get_station_list. cbv zeta. rewrite unique_In, in_map_iff. split.
  - intros [r [Hs Hr]]. apply in_merge in Hr.
    destruct Hr as [p [o [Hp [Ho [Hk Hr]]]]]. apply key_eqb_true in Hk.
    destruct Hk as [Kid Kh]. subst r. simpl in Hs.
    exists (p_pickup_hour p). split.
    + exists p. auto.
    + exists o. repeat split; [exact Ho | congruence | congruence].
  - intros [h [[p [Hp [Ps Ph]]] [o [Ho [Os Oh]]]]].
    exists (join_row p o). split; [exact Ps |].
    apply in_merge. exists p, o. repeat split; [exact Hp | exact Ho |].
    apply key_eqb_true. split; congruence.
Qed.

(** X3: the records returned for a station are exactly the pairs of a
    fetched prediction and a fetched observation of that station with the
    same hour: each carries the demand of the one, the rides of the other
    and the parsed hour as timestamp. *)
Theorem load_station_data_rows (s hours : Z) (x : Stamped Hour) :
  In x (load_station_data s hours) <->
  exists p o,
    In p (fetch_predictions hours) /\ In o (fetch_hourly_rides hours) /\
    p_pickup_location_id p = s /\ o_pickup_location_id o = s /\
    p_pickup_hour p = o_pickup_hour o /\
    x = mkStamped
          (mkMerged s (p_pickup_hour p) (p_predicted_demand p) (o_rides o))
          (to_datetime (p_pickup_hour p)).
Proof.
  rewrite in_load_station_data. split.
  - intros [r [Hr [Hs Hx]]]. apply in_merge in Hr.
    destruct Hr as [p [o [Hp [Ho [Hk Hr]]]]]. apply key_eqb_true in Hk.
    destruct Hk as [Kid Kh]. subst r x. simpl in Hs.
    exists p, o. repeat split; try assumption; [congruence |].
    unfold add_timestamp, join_row. simpl. rewrite Hs. reflexivity.
  - intros [p [o [Hp [Ho [Ps [Os [Hh Hx]]]]]]].
    exists (join_row p o). repeat split; [| exact Ps |].
    + apply in_merge. exists p, o. repeat split; [exact Hp | exact Ho |].
      apply key_eqb_true. split; congruence.
    + subst x. unfold add_timestamp, join_row. simpl. rewrite Ps.
      reflexivity.
Qed.

(** X4: sorting neither drops nor repeats a row: the returned records are
    the joined rows of the station, stamped, in another order. *)
Theorem load_station_data_perm (s hours : Z) :
  Permutation
    (map add_timestamp
         (filter (fun r => pickup_location_id r =? s)
                 (merge (fetch_predictions hours) (fetch_hourly_rides hours))))
    (load_station_data s hours).
Proof. unfold load_station_data. apply sort_values_perm. Qed.

(** ** Further facts: the size of the join *)

Lemma merge_nil_right (left : list (Prediction Hour)) : merge left [] = [].
Proof. unfold merge. induction left as [| p t IH]; simpl; auto. Qed.

(** X5: whatever the keys, the join has at most as many rows as there are
    pairs of a prediction and an observation. *)
Theorem merge_length_product (df_pred : list (Prediction Hour))
        (df_obs : list (Observation Hour)) :
  (List.length (merge df_pred df_obs)
   <= List.length df_pred * List.length df_obs)%nat.
Proof.
  unfold merge. induction df_pred as [| p t IH]; simpl; [lia |].
  rewrite length_app, length_map.
  pose proof (filter_length_le (key_eqb p) df_obs). lia.
Qed.

(** X6: when either fetch returns no row, the station list is empty and
    the page of every station is the warning followed by the stop. *)
Theorem empty_fetch_no_data (hours : Z) :
  fetch_predictions hours = [] \/ fetch_hourly_rides hours = [] ->
  get_station_list hours = [] /\
  forall s, monitor s hours =
            [ Warning "No data for this station in the selected window.";
              Stop ].
Proof.
  intro H.
  assert (E : merge (fetch_predictions hours) (fetch_hourly_rides hours) = []).
  { destruct H as [H | H]; rewrite H; [reflexivity | apply merge_nil_right]. }
  split.
  - unfold get_station_list. cbv zeta. rewrite E. reflexivity.
  - intro s. apply monitor_empty. unfold load_station_data. cbv zeta.
    rewrite E. reflexivity.
Qed.

(** X7: if the fetches for one window return every row the fetches for
    another return, the station list of the first holds every station of
    the second. *)
Theorem get_station_list_incl (w1 w2 : Z) :
  incl (fetch_predictions w1) (fetch_predictions w2) ->
  incl (fetch_hourly_rides w1) (fetch_hourly_rides w2) ->
  incl (get_station_list w1) (get_station_list w2).
Proof.
  intros Hp Ho s Hs. unfold get_station_list in *. cbv zeta in *.
  apply unique_In. apply unique_In, in_map_iff in Hs.
  destruct Hs as [r [Hr Hin]]. apply in_map_iff. exists r.
  split; [exact Hr |]. exact (merge_incl _ _ _ _ Hp Ho r Hin).
Qed.

(** ** Further facts: the series of the stations share out the join *)

Lemma list_sum_pointwise {A : Type} (g k : A -> nat) (l : list A) :
  list_sum (map (fun a => (g a + k a)%nat) l)
  = (list_sum (map g l) + list_sum (map k l))%nat.
Proof. induction l as [| a t IH]; simpl; [reflexivity | rewrite IH; lia]. Qed.

Lemma one_key_of_NoDup (k : Z) (ks : list Z) :
  NoDup ks -> In k ks ->
  list_sum (map (fun k' => if k =? k' then 1%nat else 0%nat) ks) = 1%nat.
Proof.
  induction 1 as [| x t Hx Hnd IH]; simpl; [tauto |].
  intros [E | Hin].
  - subst x. rewrite Z.eqb_refl.
    assert (Z0 : list_sum (map (fun k' => if k =? k' then 1%nat else 0%nat) t)
                 = 0%nat).
    { clear IH Hnd. induction t as [| y u IHu]; simpl; [reflexivity |].
      destruct (k =? y) eqn:E.
      - apply Z.eqb_eq in E. subst y. exfalso. apply Hx. left. reflexivity.
      - apply IHu. intro H. apply Hx. right. exact H. }
    rewrite Z0. reflexivity.
  - destruct (k =? x) eqn:E.
    + apply Z.eqb_eq in E. subst x. contradiction.
    + rewrite (IH Hin). reflexivity.
Qed.

Lemma length_by_key {A : Type} (f : A -> Z) (l : list A) (ks : list Z) :
  NoDup ks -> (forall a, In a l -> In (f a) ks) ->
  List.length l
  = list_sum (map (fun k => List.length (filter (fun a => f a =? k) l)) ks).
Proof.
  intros Hnd. induction l as [| a t IH]; intro Hin.
  - clear Hnd Hin. induction ks as [| k u IHu]; simpl; auto.
  - assert (E : map (fun k => List.length (filter (fun b => f b =? k) (a :: t)))
                    ks
                = map (fun k => ((if (f a =? k)%Z then 1 else 0)
                                 + List.length
                                     (filter (fun b => (f b =? k)%Z) t))%nat)
                      ks).
    { apply map_ext. intro k. simpl. destruct (f a =? k); reflexivity. }
    rewrite E, list_sum_pointwise, one_key_of_NoDup;
      [| exact Hnd | apply Hin; left; reflexivity].
    simpl. f_equal. apply IH. intros b Hb. apply Hin. right. exact Hb.
Qed.

(** X8: the series of the stations of the station list share out the join:
    their row counts add up to the row count of the joined frame. *)
Theorem merge_length_by_station (hours : Z) :
  List.length (merge (fetch_predictions hours) (fetch_hourly_rides hours))
  = list_sum (map (fun s => List.length (load_station_data s hours))
                  (get_station_list hours)).
Proof.
  rewrite (length_by_key pickup_location_id _ (get_station_list hours)).
  - f_equal. apply map_ext. intro s. unfold load_station_data. cbv zeta.
    rewrite <- (Permutation_length (sort_values_perm _)).
    rewrite length_map. reflexivity.
  - unfold get_station_list. apply unique_NoDup.
  - intros r Hr. unfold get_station_list. cbv zeta.
    apply unique_In, in_map, Hr.
Qed.

(** ** Further facts: one row per key *)

Lemma merge_cons_left (p : Prediction Hour) (t : list (Prediction Hour))
      (right : list (Observation Hour)) :
  merge (p :: t) right
  = map (join_row p) (filter (key_eqb p) right) ++ merge t right.
Proof. reflexivity. Qed.

Lemma NoDup_map_filter {A B : Type} (f : A -> B) (g : A -> bool)
      (l : list A) :
  NoDup (map f l) -> NoDup (map f (filter g l)).
Proof.
  induction l as [| a t IH]; simpl; intro H; [constructor |].
  inversion H as [| b u Hb Hu]; subst.
  destruct (g a); [| auto]. simpl. constructor; [| auto].
  intro Hin. apply Hb. apply in_map_iff in Hin.
  destruct Hin as [c [Hc Hin]]. apply filter_In in Hin.
  rewrite <- Hc. apply in_map, Hin.
Qed.

Lemma merge_keys_NoDup (left : list (Prediction Hour))
      (right : list (Observation Hour)) :
  NoDup (map p_key left) -> NoDup (map o_key right) ->
  NoDup (map (fun m => (pickup_location_id m, pickup_hour m))
             (merge left right)).
Proof.
  intros Hl Hr. induction left as [| p t IH]; [constructor |].
  rewrite merge_cons_left, map_app.
  inversion Hl as [| k u Hk Hu]; subst. apply NoDup_app.
  - assert (Hlen : (List.length (filter (key_eqb p) right) <= 1)%nat).
    { apply (filter_unique_key o_key _ (p_key p)); [| exact Hr].
      intros o Ho. symmetry. apply key_eqb_keys, Ho. }
    destruct (filter (key_eqb p) right) as [| o [| o' v]]; simpl.
    + constructor.
    + constructor; [intros [] | constructor].
    + simpl in Hlen. lia.
  - apply IH, Hu.
  - intros a Ha Hin. apply in_map_iff in Ha. destruct Ha as [m [Ha Hm]].
    apply in_map_iff in Hm. destruct Hm as [o [Hm _]]. subst m a.
    apply in_map_iff in Hin. destruct Hin as [m [Heq Hm]].
    apply in_merge in Hm. destruct Hm as [p' [o' [Hp' [_ [_ Hm]]]]].
    subst m. apply Hk. apply in_map_iff. exists p'. split; [| exact Hp'].
    exact Heq.
Qed.

(** X12: when neither fetched dataset holds two rows with the same
    (station, hour) key, the series of a station holds at most one record
    per hour. *)
Theorem load_station_data_one_per_hour (s hours : Z) :
  NoDup (map p_key (fetch_predictions hours)) ->
  NoDup (map o_key (fetch_hourly_rides hours)) ->
  NoDup (map (fun x => pickup_hour (row x)) (load_station_data s hours)).
Proof.
  intros Hp Ho.
  unfold load_station_data. cbv zeta.
  eapply Permutation_NoDup; [apply Permutation_map, sort_values_perm |].
  rewrite map_map. cbn [add_timestamp row].
  set (F := filter (fun r => pickup_location_id r =? s)
                   (merge (fetch_predictions hours)
                          (fetch_hourly_rides hours))).
  assert (Hk : NoDup (map (fun m => (pickup_location_id m, pickup_hour m)) F))
    by (apply NoDup_map_filter, merge_keys_NoDup; assumption).
  assert (E : map (fun m => (pickup_location_id m, pickup_hour m)) F
              = map (pair s) (map (fun m => pickup_hour m) F)).
  { rewrite map_map. apply map_ext_in. intros m Hm.
    apply filter_In in Hm. destruct Hm as [_ Hm]. apply Z.eqb_eq in Hm.
    rewrite Hm. reflexivity. }
  rewrite E in Hk. apply NoDup_map_inv in Hk. exact Hk.
Qed.

(** ** Further facts: the rows of the other stations do not matter *)

Lemma filter_idem {A : Type} (f : A -> bool) (l : list A) :
  filter f (filter f l) = filter f l.
Proof.
  induction l as [| a t IH]; simpl; [reflexivity |].
  destruct (f a) eqn:E; simpl; rewrite ?E, IH; reflexivity.
Qed.

Lemma merge_filter_station (s : Z) (left : list (Prediction Hour))
      (right : list (Observation Hour)) :
  merge (filter (fun p => p_pickup_location_id p =? s) left)
        (filter (fun o => o_pickup_location_id o =? s) right)
  = filter (fun m => pickup_location_id m =? s) (merge left right).
Proof.
  induction left as [| p t IH]; [reflexivity |].
  rewrite merge_cons_left, filter_app, <- IH. clear IH. cbn [filter].
  destruct (p_pickup_location_id p =? s) eqn:E.
  - rewrite merge_cons_left. f_equal.
    induction right as [| o u IHu]; [reflexivity |]. cbn [filter].
    destruct (key_eqb p o) eqn:K.
    + assert (Ko := K). apply key_eqb_true in Ko. destruct Ko as [Kid _].
      rewrite <- Kid, E. cbn [filter map]. rewrite K. cbn [map filter].
      cbn [join_row pickup_location_id]. rewrite E, IHu. reflexivity.
    + destruct (o_pickup_location_id o =? s); cbn [filter];
        rewrite ?K; exact IHu.
  - assert (Z0 : filter (fun m => pickup_location_id m =? s)
                        (map (join_row p) (filter (key_eqb p) right)) = []).
    { induction (filter (key_eqb p) right) as [| o u IHu]; [reflexivity |].
      cbn [map filter join_row pickup_location_id]. rewrite E. exact IHu. }
    rewrite Z0. reflexivity.
Qed.

End Monitor.

Arguments merge {Hour} Hour_eq_dec left right.
Arguments get_station_list {Hour} Hour_eq_dec _ _ hours.
Arguments load_station_data {Hour} Hour_eq_dec to_datetime _ _ station_id hours.
Arguments monitor {Hour} Hour_eq_dec to_datetime _ _ selected_station time_window.
Arguments p_key {Hour} p.
Arguments o_key {Hour} o.
Arguments abs_errors {Hour} rows.
Arguments add_error {Hour} r.

(** X13: the series of a station depends on the rows of that station only:
    on fetches cut down to the station, [load_station_data] returns the
    same records. *)
Theorem load_station_data_station_rows (Hour : Type)
        (Hour_eq_dec : forall a b : Hour, {a = b} + {a <> b})
        (to_datetime : Hour -> Z)
        (fetch_predictions : Z -> list (Prediction Hour))
        (fetch_hourly_rides : Z -> list (Observation Hour))
        (s hours : Z) :
  Permutation
    (load_station_data Hour_eq_dec to_datetime
       (fun w => filter (fun p => p_pickup_location_id p =? s)
                        (fetch_predictions w))
       (fun w => filter (fun o => o_pickup_location_id o =? s)
                        (fetch_hourly_rides w))
       s hours)
    (load_station_data Hour_eq_dec to_datetime
       fetch_predictions fetch_hourly_rides s hours).
Proof.
  unfold load_station_data. cbv zeta.
  rewrite merge_filter_station, filter_idem. apply Permutation_refl.
Qed.

(** ** The scenarios of the specification *)

Import Scenario.

Local Abbreviation load := (load_station_data Z.eq_dec to_datetime).
Local Abbreviation page := (monitor Z.eq_dec to_datetime).
Local Abbreviation catalog := (get_station_list Z.eq_dec).

(** Scenario A: two joined rows with errors 1 and 3, in hour order. *)
Example scenario_A_errors :
  map timestamp (load predicted_A observed_A 1 24) = [3600; 7200] /\
  abs_errors (load predicted_A observed_A 1 24) = [1 # 1; 3 # 1]%Q.
Proof. split; reflexivity. Qed.

(** Scenario A: mean 2, max 3, count 2. *)
Example scenario_A_metrics :
  exists avg,
    page predicted_A observed_A 1 24
    = [ StationHeader 1 24;
        Metric "Average Error" (Fmt2f (Num avg));
        Metric "Max Error" (Fmt2f (Num (3 # 1)));
        Metric "Data Points" (Count 2);
        Markdown "---";
        Subheader "Actual vs. Predicted Rides";
        ComparisonChart (map add_error (load predicted_A observed_A 1 24));
        Markdown "---";
        Subheader "Error Over Time with MAE Highlight";
        ErrorChart (map add_error (load predicted_A observed_A 1 24))
                   (Num avg) ]
    /\ (avg == 2)%Q.
Proof. eexists. split; reflexivity. Qed.

(** Scenario B: nothing joins, for station 1 as for station 2. *)
Example scenario_B_empty :
  load predicted_B observed_B 1 24 = [] /\
  load predicted_B observed_B 2 24 = [] /\
  catalog predicted_B observed_B 24 = [].
Proof. repeat split; reflexivity. Qed.

(** Scenario C: the window of 1 covers hour 30 of station 1, the window of
    24 covers hours 10, 29 and 30. *)
Example scenario_C_hours :
  map (fun x => pickup_hour (row x)) (load predicted_C observed_C 1 1)
  = [30] /\
  map (fun x => pickup_hour (row x)) (load predicted_C observed_C 1 24)
  = [10; 29; 30].
Proof. split; reflexivity. Qed.

(** ** The theorems at concrete inputs *)

Lemma monitor_metrics_witness :
  load predicted_A observed_A 1 24 <> [] /\
  exists avg mx : Q,
    In (Metric "Average Error" (Fmt2f (Num avg)))
       (page predicted_A observed_A 1 24) /\
    In (Metric "Max Error" (Fmt2f (Num mx)))
       (page predicted_A observed_A 1 24) /\
    In (Metric "Data Points"
          (Count (List.length (load predicted_A observed_A 1 24))))
       (page predicted_A observed_A 1 24) /\
    (avg == Qsum (abs_errors (load predicted_A observed_A 1 24))
            / inject_Z
                (Z.of_nat
                   (List.length
                      (abs_errors (load predicted_A observed_A 1 24)))))%Q
    /\ In mx (abs_errors (load predicted_A observed_A 1 24))
    /\ Forall (fun e => (e <= mx)%Q)
              (abs_errors (load predicted_A observed_A 1 24)).
Proof.
  split.
  - vm_compute. discriminate.
  - apply (monitor_metrics Hour Z.eq_dec to_datetime
             predicted_A observed_A 1 24).
    vm_compute. discriminate.
Defined.

Lemma empty_result_stops_witness :
  filter (fun r => pickup_location_id r =? 1)
         (merge Z.eq_dec (predicted_B 24) (observed_B 24)) = [] /\
  load predicted_B observed_B 1 24 = [] /\
  page predicted_B observed_B 1 24 =
    [ Warning "No data for this station in the selected window."; Stop ] /\
  (forall label v, ~ In (Metric label v) (page predicted_B observed_B 1 24)).
Proof.
  split.
  - reflexivity.
  - apply (empty_result_stops Hour Z.eq_dec to_datetime
             predicted_B observed_B 1 24).
    reflexivity.
Defined.

(** C6 as stated fails in scenario B: the series of station 1 is empty and
    the page shows no metric at all, so no mean or maximum was reduced to
    NaN. *)
Lemma empty_mean_counterexample :
  ~ (load predicted_B observed_B 1 24 = [] ->
     exists label v, In (Metric label v) (page predicted_B observed_B 1 24)).
Proof.
  intro H. destruct (H eq_refl) as [label [v Hin]].
  vm_compute in Hin. destruct Hin as [Hin | [Hin | []]]; discriminate Hin.
Qed.

Lemma metric_needs_data_witness :
  In (Metric "Max Error" (Fmt2f (Num (3 # 1))))
     (page predicted_A observed_A 1 24) /\
  load predicted_A observed_A 1 24 <> [].
Proof.
  split.
  - right. right. left. reflexivity.
  - apply (metric_needs_data Hour Z.eq_dec to_datetime
             predicted_A observed_A 1 24 "Max Error" (Num (3 # 1))).
    right. right. left. reflexivity.
Defined.

(** C7 as stated fails on duplicated keys: two predictions and two
    observations of one (station, hour) join into four rows. *)
Lemma merge_length_counterexample :
  List.length (merge Z.eq_dec predicted_dup observed_dup) = 4%nat /\
  ~ (List.length (merge Z.eq_dec predicted_dup observed_dup)
     <= Nat.min (List.length predicted_dup) (List.length observed_dup))%nat.
Proof.
  split; [reflexivity |]. intro H. vm_compute in H. lia.
Qed.

Lemma merge_length_unique_keys_witness :
  NoDup (map p_key (predicted_A 24)) /\
  NoDup (map o_key (observed_A 24)) /\
  (List.length (merge Z.eq_dec (predicted_A 24) (observed_A 24))
   <= Nat.min (List.length (predicted_A 24)) (List.length (observed_A 24)))%nat.
Proof.
  assert (Hp : NoDup (map p_key (predicted_A 24))).
  { simpl. constructor; [| constructor; [| constructor]]; simpl.
    - intros [H | []]. discriminate H.
    - tauto. }
  assert (Ho : NoDup (map o_key (observed_A 24))).
  { simpl. constructor; [| constructor; [| constructor]]; simpl.
    - intros [H | []]. discriminate H.
    - tauto. }
  split; [exact Hp |]. split; [exact Ho |].
  exact (merge_length_unique_keys Hour Z.eq_dec
           (predicted_A 24) (observed_A 24) Hp Ho).
Defined.

Lemma unknown_station_is_empty_witness :
  ~ In 3 (catalog predicted_A observed_A 24) /\
  load predicted_A observed_A 3 24 = [] /\
  page predicted_A observed_A 3 24 =
    [ Warning "No data for this station in the selected window."; Stop ].
Proof.
  assert (Hout : ~ In 3 (catalog predicted_A observed_A 24)).
  { vm_compute. intros [H | []]. discriminate H. }
  split; [exact Hout |].
  exact (unknown_station_is_empty Hour Z.eq_dec to_datetime
           predicted_A observed_A 3 24 Hout).
Defined.

Lemma catalog_station_has_data_witness :
  In 1 (catalog predicted_A observed_A 24) /\
  load predicted_A observed_A 1 24 <> [] /\
  (forall msg, ~ In (Warning msg) (page predicted_A observed_A 1 24)) /\
  ~ In Stop (page predicted_A observed_A 1 24).
Proof.
  assert (Hin : In 1 (catalog predicted_A observed_A 24)).
  { vm_compute. left. reflexivity. }
  split; [exact Hin |].
  exact (catalog_station_has_data Hour Z.eq_dec to_datetime
           predicted_A observed_A 1 24 Hin).
Defined.

Lemma window_hours_covered_witness :
  incl (predicted_C 1) (predicted_C 24) /\
  incl (observed_C 1) (observed_C 24) /\
  incl (map (fun x => pickup_hour (row x)) (load predicted_C observed_C 1 1))
       (map (fun x => pickup_hour (row x)) (load predicted_C observed_C 1 24)).
Proof.
  assert (Hp : incl (predicted_C 1) (predicted_C 24)).
  { intros x Hx. vm_compute in Hx. vm_compute. tauto. }
  assert (Ho : incl (observed_C 1) (observed_C 24)).
  { intros x Hx. vm_compute in Hx. vm_compute. tauto. }
  split; [exact Hp |]. split; [exact Ho |].
  exact (window_hours_covered Hour Z.eq_dec to_datetime
           predicted_C observed_C 1 Hp Ho).
Defined.

(** ** The further facts at concrete inputs *)

Lemma empty_fetch_no_data_witness :
  ((fun _ : Z => @nil (Prediction Hour)) 24 = [] \/ observed_A 24 = []) /\
  catalog (fun _ => []) observed_A 24 = [] /\
  forall s, page (fun _ => []) observed_A s 24 =
            [ Warning "No data for this station in the selected window.";
              Stop ].
Proof.
  split.
  - left. reflexivity.
  - apply (empty_fetch_no_data Hour Z.eq_dec to_datetime
             (fun _ => []) observed_A 24).
    left. reflexivity.
Defined.

Lemma get_station_list_incl_witness :
  incl (predicted_C 1) (predicted_C 24) /\
  incl (observed_C 1) (observed_C 24) /\
  incl (catalog predicted_C observed_C 1) (catalog predicted_C observed_C 24).
Proof.
  assert (Hp : incl (predicted_C 1) (predicted_C 24)).
  { intros x Hx. vm_compute in Hx. vm_compute. tauto. }
  assert (Ho : incl (observed_C 1) (observed_C 24)).
  { intros x Hx. vm_compute in Hx. vm_compute. tauto. }
  split; [exact Hp |]. split; [exact Ho |].
  exact (get_station_list_incl Hour Z.eq_dec
           predicted_C observed_C 1 24 Hp Ho).
Defined.

Lemma load_station_data_one_per_hour_witness :
  NoDup (map p_key (predicted_A 24)) /\
  NoDup (map o_key (observed_A 24)) /\
  NoDup (map (fun x => pickup_hour (row x))
             (load predicted_A observed_A 1 24)).
Proof.
  assert (Hp : NoDup (map p_key (predicted_A 24))).
  { simpl. constructor; [| constructor; [| constructor]]; simpl.
    - intros [H | []]. discriminate H.
    - tauto. }
  assert (Ho : NoDup (map o_key (observed_A 24))).
  { simpl. constructor; [| constructor; [| constructor]]; simpl.
    - intros [H | []]. discriminate H.
    - tauto. }
  split; [exact Hp |]. split; [exact Ho |].
  exact (load_station_data_one_per_hour Hour Z.eq_dec to_datetime
           predicted_A observed_A 1 24 Hp Ho).
Defined.
